(** * opentelemetry.ext.asgi: the status classifier and the attribute extractor

    A shallow embedding of [src/opentelemetry/ext/asgi/__init__.py].

    - Python integers are unbounded, so a status code is a [Z].
    - A [dict] keyed by strings (the ASGI scope, a span's attributes, the
      attribute set under construction) is a [gmap string PyVal].
    - A raised exception is the [Raise] branch of [result]; statements are
      sequenced with the bind of that monad, in source order.
    - Python [str] values are [string]s holding UTF-8 text; [bytes] values
      are [string]s holding raw octets. *)

From Stdlib Require Import ZArith List Ascii String DecimalString Lia Bool.
From stdpp Require Import base option gmap strings list fin_maps.

Local Open Scope Z_scope.

(** ** opentelemetry.trace.status *)

(** [StatusCanonicalCode], the enumeration imported on line 35. *)
Inductive StatusCanonicalCode : Type :=
| OK | CANCELLED | UNKNOWN | INVALID_ARGUMENT | DEADLINE_EXCEEDED
| NOT_FOUND | ALREADY_EXISTS | PERMISSION_DENIED | RESOURCE_EXHAUSTED
| FAILED_PRECONDITION | ABORTED | OUT_OF_RANGE | UNIMPLEMENTED
| INTERNAL | UNAVAILABLE | DATA_LOSS | UNAUTHENTICATED.

(** The members the classifier is documented to produce. *)
Definition classifier_outcomes : list StatusCanonicalCode :=
  [OK; UNKNOWN; INVALID_ARGUMENT; NOT_FOUND; PERMISSION_DENIED;
   UNAUTHENTICATED; RESOURCE_EXHAUSTED; DEADLINE_EXCEEDED; UNIMPLEMENTED;
   UNAVAILABLE; INTERNAL].

(** ** http_status_to_canonical_code (lines 56-84) *)

Definition http_status_to_canonical_code (code : Z) (allow_redirect : bool)
  : StatusCanonicalCode :=
  if code <? 100 then UNKNOWN
  else if code <=? 299 then OK
  else if code <=? 399 then
    (if allow_redirect then OK else DEADLINE_EXCEEDED)
  else if code <=? 499 then
    (if code =? 401 then UNAUTHENTICATED
     else if code =? 403 then PERMISSION_DENIED
     else if code =? 404 then NOT_FOUND
     else if code =? 429 then RESOURCE_EXHAUSTED
     else INVALID_ARGUMENT)
  else if code <=? 599 then
    (if code =? 501 then UNIMPLEMENTED
     else if code =? 503 then UNAVAILABLE
     else if code =? 504 then DEADLINE_EXCEEDED
     else INTERNAL)
  else UNKNOWN.

(** The default of the keyword argument: [allow_redirect: bool = True]. *)
Definition allow_redirect_default : bool := true.

(** ** Exceptions and the result of a call *)

(** The built-in exception classes the modelled statements can raise. *)
Inductive PyExc : Type :=
| TypeError | KeyError | ValueError | IndexError | AttributeError
| UnicodeDecodeError.

Inductive result (A : Type) : Type :=
| Ok (a : A)
| Raise (e : PyExc).
Arguments Ok {A} a.
Arguments Raise {A} e.

#[global] Instance result_ret : MRet result := fun A a => Ok a.
#[global] Instance result_bind : MBind result := fun A B f r =>
  match r with
  | Ok a => f a
  | Raise e => Raise e
  end.
#[global] Instance result_fmap : FMap result := fun A B f r =>
  match r with
  | Ok a => Ok (f a)
  | Raise e => Raise e
  end.

(** ** Python values *)

(** The values a scope, a header list or a status can hold.  A [str] is the
    UTF-8 text of the string, a [bytes] its octets; a nested [dict] has
    string keys and keeps its items in insertion order.  Floats and
    objects of other classes are not part of the model. *)
#[warnings="-register-all"]
Inductive PyVal : Type :=
| PyNone
| PyBool (b : bool)
| PyInt (z : Z)
| PyStr (s : string)
| PyBytes (b : string)
| PyTuple (items : list PyVal)
| PyList (items : list PyVal)
| PyDict (items : list (string * PyVal)).

(** The scope argument, annotated [dict] in the source. *)
Abbreviation Scope := (gmap string PyVal).

(** *** Text *)

Definition byte_in (lo hi : N) (c : ascii) : bool :=
  ((lo <=? N_of_ascii c) && (N_of_ascii c <=? hi))%N.

Definition utf8_cont (c : ascii) : bool := byte_in 128 191 c.

(** Lead byte and first continuation byte of a three-octet sequence:
    no overlong form, no surrogate. *)
Definition utf8_lead3 (b0 b1 : ascii) : bool :=
  (byte_in 224 224 b0 && byte_in 160 191 b1)
  || (byte_in 225 236 b0 && utf8_cont b1)
  || (byte_in 237 237 b0 && byte_in 128 159 b1)
  || (byte_in 238 239 b0 && utf8_cont b1).

(** The same for four octets: no overlong form, nothing above U+10FFFF. *)
Definition utf8_lead4 (b0 b1 : ascii) : bool :=
  (byte_in 240 240 b0 && byte_in 144 191 b1)
  || (byte_in 241 243 b0 && utf8_cont b1)
  || (byte_in 244 244 b0 && byte_in 128 143 b1).

(** Splits UTF-8 text into its code points; [None] on ill-formed input. *)
Fixpoint utf8_chars (s : string) : option (list string) :=
  match s with
  | EmptyString => Some []
  | String b0 r0 =>
    if byte_in 0 127 b0 then cons (String b0 EmptyString) <$> utf8_chars r0
    else
      match r0 with
      | EmptyString => None
      | String b1 r1 =>
        if byte_in 194 223 b0 && utf8_cont b1
        then cons (String b0 (String b1 EmptyString)) <$> utf8_chars r1
        else
          match r1 with
          | EmptyString => None
          | String b2 r2 =>
            if utf8_lead3 b0 b1 && utf8_cont b2
            then cons (String b0 (String b1 (String b2 EmptyString)))
                   <$> utf8_chars r2
            else
              match r2 with
              | EmptyString => None
              | String b3 r3 =>
                if utf8_lead4 b0 b1 && utf8_cont b2 && utf8_cont b3
                then cons (String b0 (String b1 (String b2
                             (String b3 EmptyString))))
                       <$> utf8_chars r3
                else None
              end
          end
      end
  end.

(** The characters of a [str]; text that is not UTF-8 is read octet by
    octet. *)
Definition str_chars (s : string) : list string :=
  match utf8_chars s with
  | Some cs => cs
  | None => (fun c => String c EmptyString) <$> list_ascii_of_string s
  end.

Definition is_empty (s : string) : bool :=
  match s with EmptyString => true | String _ _ => false end.

(** [str(n)] and [repr(n)] of an integer. *)
Definition int_to_str (z : Z) : string :=
  NilZero.string_of_int (Z.to_int z).

Definition quote1 : ascii := "'"%char.
Definition quote2 : ascii := "034"%char.
Definition backslash : ascii := "\"%char.

Definition contains_char (c : ascii) (s : string) : bool :=
  existsb (Ascii.eqb c) (list_ascii_of_string s).

(** The quote [repr] puts around a string: double only when the text holds
    a single quote and no double one. *)
Definition repr_quote (s : string) : ascii :=
  if contains_char quote1 s && negb (contains_char quote2 s)
  then quote2 else quote1.

Definition hex_digit (n : N) : ascii :=
  ascii_of_N (if (n <? 10)%N then 48 + n else 87 + n).

Definition hex_escape (c : ascii) : string :=
  let n := N_of_ascii c in
  String backslash (String "x"%char
    (String (hex_digit (n / 16)) (String (hex_digit (n mod 16)) EmptyString))).

(** One character of a [repr]: backslash, the quote in use, tab, newline and
    carriage return by their escapes, other control characters in hex; in a
    [bytes] literal ([ascii_only]) every octet from 128 up as well. *)
Definition repr_char (q : ascii) (ascii_only : bool) (c : ascii) : string :=
  let n := N_of_ascii c in
  if Ascii.eqb c backslash then String backslash (String backslash EmptyString)
  else if Ascii.eqb c q then String backslash (String q EmptyString)
  else if (n =? 9)%N then String backslash "t"
  else if (n =? 10)%N then String backslash "n"
  else if (n =? 13)%N then String backslash "r"
  else if ((n <? 32) || (n =? 127) || (ascii_only && (128 <=? n)))%N
       then hex_escape c
  else String c EmptyString.

Definition repr_quoted (ascii_only : bool) (s : string) : string :=
  let q := repr_quote s in
  String q (String.concat EmptyString
              (repr_char q ascii_only <$> list_ascii_of_string s))
  +:+ String q EmptyString.

Definition repr_bytes (b : string) : string := "b" +:+ repr_quoted true b.

(** The code point a UTF-8 sequence encodes. *)
Definition code_point (c : string) : N :=
  match N_of_ascii <$> list_ascii_of_string c with
  | [b0] => b0
  | [b0; b1] => (b0 - 192) * 64 + (b1 - 128)
  | [b0; b1; b2] => (b0 - 224) * 4096 + (b1 - 128) * 64 + (b2 - 128)
  | [b0; b1; b2; b3] =>
    (b0 - 240) * 262144 + (b1 - 128) * 4096 + (b2 - 128) * 64 + (b3 - 128)
  | _ => 0
  end%N.

(** The code points from 128 up that [str.isprintable] rejects, as closed
    ranges: the data of Unicode 14.0, which CPython 3.11 carries. *)
Definition nonprintable_ranges : list (N * N) :=
  [
   (128, 160); (173, 173); (888, 889); (896, 899); (907, 907); (909, 909);
   (930, 930); (1328, 1328); (1367, 1368); (1419, 1420); (1424, 1424);
   (1480, 1487); (1515, 1518); (1525, 1541); (1564, 1564); (1757, 1757);
   (1806, 1807); (1867, 1868); (1970, 1983); (2043, 2044); (2094, 2095);
   (2111, 2111); (2140, 2141); (2143, 2143); (2155, 2159); (2191, 2199);
   (2274, 2274); (2436, 2436); (2445, 2446); (2449, 2450); (2473, 2473);
   (2481, 2481); (2483, 2485); (2490, 2491); (2501, 2502); (2505, 2506);
   (2511, 2518); (2520, 2523); (2526, 2526); (2532, 2533); (2559, 2560);
   (2564, 2564); (2571, 2574); (2577, 2578); (2601, 2601); (2609, 2609);
   (2612, 2612); (2615, 2615); (2618, 2619); (2621, 2621); (2627, 2630);
   (2633, 2634); (2638, 2640); (2642, 2648); (2653, 2653); (2655, 2661);
   (2679, 2688); (2692, 2692); (2702, 2702); (2706, 2706); (2729, 2729);
   (2737, 2737); (2740, 2740); (2746, 2747); (2758, 2758); (2762, 2762);
   (2766, 2767); (2769, 2783); (2788, 2789); (2802, 2808); (2816, 2816);
   (2820, 2820); (2829, 2830); (2833, 2834); (2857, 2857); (2865, 2865);
   (2868, 2868); (2874, 2875); (2885, 2886); (2889, 2890); (2894, 2900);
   (2904, 2907); (2910, 2910); (2916, 2917); (2936, 2945); (2948, 2948);
   (2955, 2957); (2961, 2961); (2966, 2968); (2971, 2971); (2973, 2973);
   (2976, 2978); (2981, 2983); (2987, 2989); (3002, 3005); (3011, 3013);
   (3017, 3017); (3022, 3023); (3025, 3030); (3032, 3045); (3067, 3071);
   (3085, 3085); (3089, 3089); (3113, 3113); (3130, 3131); (3141, 3141);
   (3145, 3145); (3150, 3156); (3159, 3159); (3163, 3164); (3166, 3167);
   (3172, 3173); (3184, 3190); (3213, 3213); (3217, 3217); (3241, 3241);
   (3252, 3252); (3258, 3259); (3269, 3269); (3273, 3273); (3278, 3284);
   (3287, 3292); (3295, 3295); (3300, 3301); (3312, 3312); (3315, 3327);
   (3341, 3341); (3345, 3345); (3397, 3397); (3401, 3401); (3408, 3411);
   (3428, 3429); (3456, 3456); (3460, 3460); (3479, 3481); (3506, 3506);
   (3516, 3516); (3518, 3519); (3527, 3529); (3531, 3534); (3541, 3541);
   (3543, 3543); (3552, 3557); (3568, 3569); (3573, 3584); (3643, 3646);
   (3676, 3712); (3715, 3715); (3717, 3717); (3723, 3723); (3748, 3748);
   (3750, 3750); (3774, 3775); (3781, 3781); (3783, 3783); (3790, 3791);
   (3802, 3803); (3808, 3839); (3912, 3912); (3949, 3952); (3992, 3992);
   (4029, 4029); (4045, 4045); (4059, 4095); (4294, 4294); (4296, 4300);
   (4302, 4303); (4681, 4681); (4686, 4687); (4695, 4695); (4697, 4697);
   (4702, 4703); (4745, 4745); (4750, 4751); (4785, 4785); (4790, 4791);
   (4799, 4799); (4801, 4801); (4806, 4807); (4823, 4823); (4881, 4881);
   (4886, 4887); (4955, 4956); (4989, 4991); (5018, 5023); (5110, 5111);
   (5118, 5119); (5760, 5760); (5789, 5791); (5881, 5887); (5910, 5918);
   (5943, 5951); (5972, 5983); (5997, 5997); (6001, 6001); (6004, 6015);
   (6110, 6111); (6122, 6127); (6138, 6143); (6158, 6158); (6170, 6175);
   (6265, 6271); (6315, 6319); (6390, 6399); (6431, 6431); (6444, 6447);
   (6460, 6463); (6465, 6467); (6510, 6511); (6517, 6527); (6572, 6575);
   (6602, 6607); (6619, 6621); (6684, 6685); (6751, 6751); (6781, 6782);
   (6794, 6799); (6810, 6815); (6830, 6831); (6863, 6911); (6989, 6991);
   (7039, 7039); (7156, 7163); (7224, 7226); (7242, 7244); (7305, 7311);
   (7355, 7356); (7368, 7375); (7419, 7423); (7958, 7959); (7966, 7967);
   (8006, 8007); (8014, 8015); (8024, 8024); (8026, 8026); (8028, 8028);
   (8030, 8030); (8062, 8063); (8117, 8117); (8133, 8133); (8148, 8149);
   (8156, 8156); (8176, 8177); (8181, 8181); (8191, 8207); (8232, 8239);
   (8287, 8303); (8306, 8307); (8335, 8335); (8349, 8351); (8385, 8399);
   (8433, 8447); (8588, 8591); (9255, 9279); (9291, 9311); (11124, 11125);
   (11158, 11158); (11508, 11512); (11558, 11558); (11560, 11564); (11566,
   11567); (11624, 11630); (11633, 11646); (11671, 11679); (11687, 11687);
   (11695, 11695); (11703, 11703); (11711, 11711); (11719, 11719); (11727,
   11727); (11735, 11735); (11743, 11743); (11870, 11903); (11930, 11930);
   (12020, 12031); (12246, 12271); (12284, 12288); (12352, 12352); (12439,
   12440); (12544, 12548); (12592, 12592); (12687, 12687); (12772, 12783);
   (12831, 12831); (42125, 42127); (42183, 42191); (42540, 42559); (42744,
   42751); (42955, 42959); (42962, 42962); (42964, 42964); (42970, 42993);
   (43053, 43055); (43066, 43071); (43128, 43135); (43206, 43213); (43226,
   43231); (43348, 43358); (43389, 43391); (43470, 43470); (43482, 43485);
   (43519, 43519); (43575, 43583); (43598, 43599); (43610, 43611); (43715,
   43738); (43767, 43776); (43783, 43784); (43791, 43792); (43799, 43807);
   (43815, 43815); (43823, 43823); (43884, 43887); (44014, 44015); (44026,
   44031); (55204, 55215); (55239, 55242); (55292, 63743); (64110, 64111);
   (64218, 64255); (64263, 64274); (64280, 64284); (64311, 64311); (64317,
   64317); (64319, 64319); (64322, 64322); (64325, 64325); (64451, 64466);
   (64912, 64913); (64968, 64974); (64976, 65007); (65050, 65055); (65107,
   65107); (65127, 65127); (65132, 65135); (65141, 65141); (65277, 65280);
   (65471, 65473); (65480, 65481); (65488, 65489); (65496, 65497); (65501,
   65503); (65511, 65511); (65519, 65531); (65534, 65535); (65548, 65548);
   (65575, 65575); (65595, 65595); (65598, 65598); (65614, 65615); (65630,
   65663); (65787, 65791); (65795, 65798); (65844, 65846); (65935, 65935);
   (65949, 65951); (65953, 65999); (66046, 66175); (66205, 66207); (66257,
   66271); (66300, 66303); (66340, 66348); (66379, 66383); (66427, 66431);
   (66462, 66462); (66500, 66503); (66518, 66559); (66718, 66719); (66730,
   66735); (66772, 66775); (66812, 66815); (66856, 66863); (66916, 66926);
   (66939, 66939); (66955, 66955); (66963, 66963); (66966, 66966); (66978,
   66978); (66994, 66994); (67002, 67002); (67005, 67071); (67383, 67391);
   (67414, 67423); (67432, 67455); (67462, 67462); (67505, 67505); (67515,
   67583); (67590, 67591); (67593, 67593); (67638, 67638); (67641, 67643);
   (67645, 67646); (67670, 67670); (67743, 67750); (67760, 67807); (67827,
   67827); (67830, 67834); (67868, 67870); (67898, 67902); (67904, 67967);
   (68024, 68027); (68048, 68049); (68100, 68100); (68103, 68107); (68116,
   68116); (68120, 68120); (68150, 68151); (68155, 68158); (68169, 68175);
   (68185, 68191); (68256, 68287); (68327, 68330); (68343, 68351); (68406,
   68408); (68438, 68439); (68467, 68471); (68498, 68504); (68509, 68520);
   (68528, 68607); (68681, 68735); (68787, 68799); (68851, 68857); (68904,
   68911); (68922, 69215); (69247, 69247); (69290, 69290); (69294, 69295);
   (69298, 69375); (69416, 69423); (69466, 69487); (69514, 69551); (69580,
   69599); (69623, 69631); (69710, 69713); (69750, 69758); (69821, 69821);
   (69827, 69839); (69865, 69871); (69882, 69887); (69941, 69941); (69960,
   69967); (70007, 70015); (70112, 70112); (70133, 70143); (70162, 70162);
   (70207, 70271); (70279, 70279); (70281, 70281); (70286, 70286); (70302,
   70302); (70314, 70319); (70379, 70383); (70394, 70399); (70404, 70404);
   (70413, 70414); (70417, 70418); (70441, 70441); (70449, 70449); (70452,
   70452); (70458, 70458); (70469, 70470); (70473, 70474); (70478, 70479);
   (70481, 70486); (70488, 70492); (70500, 70501); (70509, 70511); (70517,
   70655); (70748, 70748); (70754, 70783); (70856, 70863); (70874, 71039);
   (71094, 71095); (71134, 71167); (71237, 71247); (71258, 71263); (71277,
   71295); (71354, 71359); (71370, 71423); (71451, 71452); (71468, 71471);
   (71495, 71679); (71740, 71839); (71923, 71934); (71943, 71944); (71946,
   71947); (71956, 71956); (71959, 71959); (71990, 71990); (71993, 71994);
   (72007, 72015); (72026, 72095); (72104, 72105); (72152, 72153); (72165,
   72191); (72264, 72271); (72355, 72367); (72441, 72703); (72713, 72713);
   (72759, 72759); (72774, 72783); (72813, 72815); (72848, 72849); (72872,
   72872); (72887, 72959); (72967, 72967); (72970, 72970); (73015, 73017);
   (73019, 73019); (73022, 73022); (73032, 73039); (73050, 73055); (73062,
   73062); (73065, 73065); (73103, 73103); (73106, 73106); (73113, 73119);
   (73130, 73439); (73465, 73647); (73649, 73663); (73714, 73726); (74650,
   74751); (74863, 74863); (74869, 74879); (75076, 77711); (77811, 77823);
   (78895, 82943); (83527, 92159); (92729, 92735); (92767, 92767); (92778,
   92781); (92863, 92863); (92874, 92879); (92910, 92911); (92918, 92927);
   (92998, 93007); (93018, 93018); (93026, 93026); (93048, 93052); (93072,
   93759); (93851, 93951); (94027, 94030); (94088, 94094); (94112, 94175);
   (94181, 94191); (94194, 94207); (100344, 100351); (101590, 101631);
   (101641, 110575); (110580, 110580); (110588, 110588); (110591, 110591);
   (110883, 110927); (110931, 110947); (110952, 110959); (111356, 113663);
   (113771, 113775); (113789, 113791); (113801, 113807); (113818, 113819);
   (113824, 118527); (118574, 118575); (118599, 118607); (118724, 118783);
   (119030, 119039); (119079, 119080); (119155, 119162); (119275, 119295);
   (119366, 119519); (119540, 119551); (119639, 119647); (119673, 119807);
   (119893, 119893); (119965, 119965); (119968, 119969); (119971, 119972);
   (119975, 119976); (119981, 119981); (119994, 119994); (119996, 119996);
   (120004, 120004); (120070, 120070); (120075, 120076); (120085, 120085);
   (120093, 120093); (120122, 120122); (120127, 120127); (120133, 120133);
   (120135, 120137); (120145, 120145); (120486, 120487); (120780, 120781);
   (121484, 121498); (121504, 121504); (121520, 122623); (122655, 122879);
   (122887, 122887); (122905, 122906); (122914, 122914); (122917, 122917);
   (122923, 123135); (123181, 123183); (123198, 123199); (123210, 123213);
   (123216, 123535); (123567, 123583); (123642, 123646); (123648, 124895);
   (124903, 124903); (124908, 124908); (124911, 124911); (124927, 124927);
   (125125, 125126); (125143, 125183); (125260, 125263); (125274, 125277);
   (125280, 126064); (126133, 126208); (126270, 126463); (126468, 126468);
   (126496, 126496); (126499, 126499); (126501, 126502); (126504, 126504);
   (126515, 126515); (126520, 126520); (126522, 126522); (126524, 126529);
   (126531, 126534); (126536, 126536); (126538, 126538); (126540, 126540);
   (126544, 126544); (126547, 126547); (126549, 126550); (126552, 126552);
   (126554, 126554); (126556, 126556); (126558, 126558); (126560, 126560);
   (126563, 126563); (126565, 126566); (126571, 126571); (126579, 126579);
   (126584, 126584); (126589, 126589); (126591, 126591); (126602, 126602);
   (126620, 126624); (126628, 126628); (126634, 126634); (126652, 126703);
   (126706, 126975); (127020, 127023); (127124, 127135); (127151, 127152);
   (127168, 127168); (127184, 127184); (127222, 127231); (127406, 127461);
   (127491, 127503); (127548, 127551); (127561, 127567); (127570, 127583);
   (127590, 127743); (128728, 128732); (128749, 128751); (128765, 128767);
   (128884, 128895); (128985, 128991); (129004, 129007); (129009, 129023);
   (129036, 129039); (129096, 129103); (129114, 129119); (129160, 129167);
   (129198, 129199); (129202, 129279); (129620, 129631); (129646, 129647);
   (129653, 129655); (129661, 129663); (129671, 129679); (129709, 129711);
   (129723, 129727); (129734, 129743); (129754, 129759); (129768, 129775);
   (129783, 129791); (129939, 129939); (129995, 130031); (130042, 131071);
   (173792, 173823); (177977, 177983); (178206, 178207); (183970, 183983);
   (191457, 194559); (195102, 196607); (201547, 917759); (918000, 1114111)
  ]%N.

Definition nonprintable (cp : N) : bool :=
  existsb (fun r => (r.1 <=? cp) && (cp <=? r.2))%N nonprintable_ranges.

Fixpoint hex_digits (width : nat) (n : N) : string :=
  match width with
  | O => EmptyString
  | S w => hex_digits w (n / 16) +:+ String (hex_digit (n mod 16)) EmptyString
  end.

(** The escape [repr] writes for a non-printable code point from 128 up. *)
Definition unicode_escape (cp : N) : string :=
  if (cp <? 256)%N then String backslash ("x" +:+ hex_digits 2 cp)
  else if (cp <? 65536)%N then String backslash ("u" +:+ hex_digits 4 cp)
  else String backslash ("U" +:+ hex_digits 8 cp).

(** One character of the [repr] of a [str]: an ASCII one as [repr_char]
    has it, another one by its escape when it is not printable and as it
    is otherwise. *)
Definition repr_str_char (q : ascii) (c : string) : string :=
  let cp := code_point c in
  if (cp <? 128)%N then repr_char q false (ascii_of_N cp)
  else if nonprintable cp then unicode_escape cp
  else c.

Definition repr_str (s : string) : string :=
  let q := repr_quote s in
  String q (String.concat EmptyString (repr_str_char q <$> str_chars s))
  +:+ String q EmptyString.

(** *** Built-in operations *)

(** [bool(v)]: the truth value tested by [or] and [if]. *)
Definition truthy (v : PyVal) : bool :=
  match v with
  | PyNone => false
  | PyBool b => b
  | PyInt z => negb (z =? 0)
  | PyStr s | PyBytes s => negb (is_empty s)
  | PyTuple items | PyList items => negb (bool_decide (items = []))
  | PyDict items => negb (bool_decide (items = []))
  end.

(** [a or b]. *)
Definition py_or (a b : PyVal) : PyVal := if truthy a then a else b.

(** [repr(v)]. *)
Fixpoint py_repr (v : PyVal) : string :=
  match v with
  | PyNone => "None"
  | PyBool b => if b then "True" else "False"
  | PyInt z => int_to_str z
  | PyStr s => repr_str s
  | PyBytes b => repr_bytes b
  | PyTuple items =>
    match items with
    | [x] => "(" +:+ py_repr x +:+ ",)"
    | _ => "(" +:+ String.concat ", " (map py_repr items) +:+ ")"
    end
  | PyList items => "[" +:+ String.concat ", " (map py_repr items) +:+ "]"
  | PyDict items =>
    "{" +:+ String.concat ", "
              (map (fun kv => repr_str (fst kv) +:+ ": " +:+ py_repr (snd kv))
                   items) +:+ "}"
  end.

(** [str(v)]: the text itself for a [str], the [repr] otherwise. *)
Definition py_str (v : PyVal) : string :=
  match v with
  | PyStr s => s
  | _ => py_repr v
  end.

(** White space skipped around an integer literal: tab to carriage return
    and the blank. *)
Definition is_space (c : ascii) : bool := byte_in 9 13 c || byte_in 32 32 c.

Fixpoint drop_spaces (cs : list ascii) : list ascii :=
  match cs with
  | c :: rest => if is_space c then drop_spaces rest else cs
  | [] => []
  end.

Definition strip_spaces (cs : list ascii) : list ascii :=
  rev (drop_spaces (rev (drop_spaces cs))).

Definition digit_of (c : ascii) : option Z :=
  if byte_in 48 57 c then Some (Z.of_N (N_of_ascii c) - 48) else None.

(** Decimal digits, single underscores allowed between two digits. *)
Fixpoint parse_digits (cs : list ascii) (acc : Z) (after_digit : bool)
  : option Z :=
  match cs with
  | [] => if after_digit then Some acc else None
  | c :: rest =>
    match digit_of c with
    | Some d => parse_digits rest (10 * acc + d) true
    | None =>
      if Ascii.eqb c "_"%char && after_digit
      then parse_digits rest acc false
      else None
    end
  end.

(** The white space of Unicode above ASCII, and the first code point of
    each block of ten decimal digits above ASCII (Unicode 14.0). *)
Definition unicode_spaces : list N :=
  [
   133; 160; 5760; 8192; 8193; 8194; 8195; 8196; 8197; 8198; 8199; 8200;
   8201; 8202; 8232; 8233; 8239; 8287; 12288
  ]%N.

Definition decimal_digit_blocks : list N :=
  [
   1632; 1776; 1984; 2406; 2534; 2662; 2790; 2918; 3046; 3174; 3302; 3430;
   3558; 3664; 3792; 3872; 4160; 4240; 6112; 6160; 6470; 6608; 6784; 6800;
   6992; 7088; 7232; 7248; 42528; 43216; 43264; 43472; 43504; 43600;
   44016; 65296; 66720; 68912; 69734; 69872; 69942; 70096; 70384; 70736;
   70864; 71248; 71360; 71472; 71904; 72016; 72784; 73040; 73120; 92768;
   92864; 93008; 120782; 120792; 120802; 120812; 120822; 123200; 123632;
   125264; 130032
  ]%N.

Definition unicode_decimal (cp : N) : option N :=
  (fun zero => cp - zero)%N
    <$> find (fun zero => (zero <=? cp) && (cp <? zero + 10))%N
             decimal_digit_blocks.

(** What [int] makes of one character of a [str] before it parses: an
    ASCII character stays, white space becomes a blank, a decimal digit
    its ASCII digit; any other character makes the text no literal. *)
Definition int_char (c : string) : option ascii :=
  let cp := code_point c in
  if (cp <? 127)%N then Some (ascii_of_N cp)
  else if existsb (N.eqb cp) unicode_spaces then Some " "%char
  else (fun d => ascii_of_N (48 + d)) <$> unicode_decimal cp.

Definition int_text (in_str : bool) (s : string) : option (list ascii) :=
  if in_str then mapM int_char (str_chars s)
  else Some (list_ascii_of_string s).

(** The most digits [int] converts (the default limit of CPython 3.11);
    sign, underscores and white space do not count. *)
Definition max_str_digits : nat := 4300.

(** The base-10 literal [int] accepts: spaces, a sign, digits. *)
Definition parse_int_literal (in_str : bool) (s : string) : option Z :=
  cs ← int_text in_str s;
  match strip_spaces cs with
  | c :: rest =>
    let negative := Ascii.eqb c "-"%char in
    let body := if negative || Ascii.eqb c "+"%char then rest else c :: rest in
    if (max_str_digits <? length (filter (fun d => byte_in 48 57 d) body))%nat
    then None
    else if negative then Z.opp <$> parse_digits body 0 false
    else parse_digits body 0 false
  | [] => None
  end.

(** [int(v)]: an integer or a boolean as it is, a [str] or [bytes] parsed
    (ValueError when it is no literal), TypeError for every other type. *)
Definition py_int (v : PyVal) : result Z :=
  match v with
  | PyInt z => Ok z
  | PyBool b => Ok (if b then 1 else 0)
  | PyStr s =>
    match parse_int_literal true s with
    | Some z => Ok z
    | None => Raise ValueError
    end
  | PyBytes b =>
    match parse_int_literal false b with
    | Some z => Ok z
    | None => Raise ValueError
    end
  | PyNone | PyTuple _ | PyList _ | PyDict _ => Raise TypeError
  end.

(** [v[i]] for a literal index [i >= 0]. *)
Definition py_getitem (v : PyVal) (i : nat) : result PyVal :=
  match v with
  | PyTuple items | PyList items =>
    match items !! i with
    | Some x => Ok x
    | None => Raise IndexError
    end
  | PyStr s =>
    match str_chars s !! i with
    | Some c => Ok (PyStr c)
    | None => Raise IndexError
    end
  | PyBytes b =>
    match list_ascii_of_string b !! i with
    | Some c => Ok (PyInt (Z.of_N (N_of_ascii c)))
    | None => Raise IndexError
    end
  | PyDict _ => Raise KeyError
  | PyNone | PyBool _ | PyInt _ => Raise TypeError
  end.

Definition as_number (v : PyVal) : option Z :=
  match v with
  | PyInt z => Some z
  | PyBool b => Some (if b then 1 else 0)
  | _ => None
  end.

(** [a + b]. *)
Definition py_add (a b : PyVal) : result PyVal :=
  match a, b with
  | PyStr s, PyStr t => Ok (PyStr (s +:+ t))
  | PyBytes s, PyBytes t => Ok (PyBytes (s +:+ t))
  | PyTuple l, PyTuple r => Ok (PyTuple (l ++ r))
  | PyList l, PyList r => Ok (PyList (l ++ r))
  | _, _ =>
    match as_number a, as_number b with
    | Some x, Some y => Ok (PyInt (x + y))
    | _, _ => Raise TypeError
    end
  end.

(** [v == n] for an integer literal [n]. *)
Definition py_eq_int (v : PyVal) (n : Z) : bool :=
  match as_number v with
  | Some z => z =? n
  | None => false
  end.

(** [v == s] for a [str] [s]. *)
Definition py_eq_str (v : PyVal) (s : string) : bool :=
  match v with
  | PyStr t => String.eqb t s
  | _ => false
  end.

(** The items [for ... in v] and tuple unpacking go through. *)
Definition py_iter (v : PyVal) : result (list PyVal) :=
  match v with
  | PyTuple items | PyList items => Ok items
  | PyStr s => Ok (PyStr <$> str_chars s)
  | PyBytes b =>
    Ok ((fun c => PyInt (Z.of_N (N_of_ascii c))) <$> list_ascii_of_string b)
  | PyDict items => Ok ((fun kv => PyStr (fst kv)) <$> items)
  | PyNone | PyBool _ | PyInt _ => Raise TypeError
  end.

(** [(key, value) = v]. *)
Definition unpack2 (v : PyVal) : result (PyVal * PyVal) :=
  items ← py_iter v;
  match items with
  | [a; b] => Ok (a, b)
  | _ => Raise ValueError
  end.

(** [v.decode("utf8")]: only [bytes] has the method. *)
Definition py_decode_utf8 (v : PyVal) : result PyVal :=
  match v with
  | PyBytes b =>
    match utf8_chars b with
    | Some _ => Ok (PyStr b)
    | None => Raise UnicodeDecodeError
    end
  | _ => Raise AttributeError
  end.

(** [sep.join(items)]: every item has to be a [str]. *)
Fixpoint str_items (items : list PyVal) : result (list string) :=
  match items with
  | [] => Ok []
  | PyStr s :: rest => cons s <$> str_items rest
  | _ :: _ => Raise TypeError
  end.

Definition str_join (sep : string) (items : list PyVal) : result string :=
  String.concat sep <$> str_items items.

(** [d.get(key)], [d[key]], [key in d] and [d(...)] for a [dict] [d]; a
    [dict] is not callable. *)
Definition dict_get (d : gmap string PyVal) (key : string) : PyVal :=
  default PyNone (d !! key).

Definition dict_getitem (d : gmap string PyVal) (key : string)
  : result PyVal :=
  match d !! key with
  | Some v => Ok v
  | None => Raise KeyError
  end.

Definition dict_contains (d : gmap string PyVal) (key : string) : bool :=
  bool_decide (is_Some (d !! key)).

Definition dict_call (d : gmap string PyVal) (args : list PyVal)
  : result PyVal :=
  Raise TypeError.

(** *** str.format *)

(** How the replacement fields seen so far were numbered: [{}] and [{0}]
    cannot be mixed. *)
Inductive Numbering : Type :=
| Undecided
| Automatic (next : nat)
| Manual.

Definition field_name_char (c : ascii) : bool :=
  byte_in 48 57 c || byte_in 65 90 c || byte_in 97 122 c || byte_in 95 95 c.

Definition positional (args : list PyVal) (i : nat) : result PyVal :=
  match args !! i with
  | Some v => Ok v
  | None => Raise IndexError
  end.

(** The argument a replacement field names: the next positional one for an
    empty name, the one at that index for digits, else the keyword argument
    of that name, [KeyError] when there is none. *)
Definition field_value (name : string) (args : list PyVal)
    (kwargs : gmap string PyVal) (num : Numbering)
  : result (PyVal * Numbering) :=
  if is_empty name then
    match num with
    | Manual => Raise ValueError
    | Undecided => v ← positional args 0; Ok (v, Automatic 1)
    | Automatic n => v ← positional args n; Ok (v, Automatic (S n))
    end
  else if forallb (byte_in 48 57) (list_ascii_of_string name) then
    match num with
    | Automatic _ => Raise ValueError
    | _ =>
      v ← positional args
            (Z.to_nat (default 0 (parse_digits (list_ascii_of_string name)
                                               0 false)));
      Ok (v, Manual)
    end
  else
    match kwargs !! name with
    | Some v => Ok (v, num)
    | None => Raise KeyError
    end.

(** One left-to-right pass over the template, as [str.format] makes it:
    doubled braces are literal braces, [{name}] is replaced by [str] of the
    argument it names.  Conversions, format specifications and attribute or
    index access inside a field are outside this model (no template of the
    source has any). *)
Fixpoint format_from (s : string) (field : option string)
    (args : list PyVal) (kwargs : gmap string PyVal) (num : Numbering)
  : result string :=
  match s with
  | EmptyString =>
    match field with
    | None => Ok EmptyString
    | Some _ => Raise ValueError
    end
  | String c rest =>
    match field with
    | Some name =>
      if Ascii.eqb c "}"%char then
        '(v, num') ← field_value name args kwargs num;
        tail ← format_from rest None args kwargs num';
        Ok (py_str v +:+ tail)
      else if field_name_char c then
        format_from rest (Some (name +:+ String c EmptyString))
                    args kwargs num
      else Raise ValueError
    | None =>
      if Ascii.eqb c "{"%char then
        match rest with
        | EmptyString => Raise ValueError
        | String c' rest' =>
          if Ascii.eqb c' "{"%char
          then String c <$> format_from rest' None args kwargs num
          else format_from rest (Some EmptyString) args kwargs num
        end
      else if Ascii.eqb c "}"%char then
        match rest with
        | EmptyString => Raise ValueError
        | String c' rest' =>
          if Ascii.eqb c' "}"%char
          then String c <$> format_from rest' None args kwargs num
          else Raise ValueError
        end
      else String c <$> format_from rest None args kwargs num
    end
  end.

(** [template.format(...)] with its positional and its keyword arguments. *)
Definition py_format (template : string) (args : list PyVal)
    (kwargs : gmap string PyVal) : result string :=
  format_from template None args kwargs Undecided.

(** ** Spans *)

(** [Status(canonical_code, description=None)]. *)
Record Status : Type := mkStatus {
  canonical_code : StatusCanonicalCode;
  description : option string
}.

(** What the two calls made on a span leave behind: the attributes set so
    far and the last status set, if any. *)
Record Span : Type := mkSpan {
  attributes : gmap string PyVal;
  status : option Status
}.

Definition new_span : Span := mkSpan ∅ None.

(** [span.set_attribute(key, value)]. *)
Definition set_attribute (span : Span) (key : string) (value : PyVal)
  : Span :=
  mkSpan (<[key := value]> (attributes span)) (status span).

(** [span.set_status(st)]. *)
Definition set_status (span : Span) (st : Status) : Span :=
  mkSpan (attributes span) (Some st).

(** ** get_header_from_scope (lines 40-48) *)

(** The comprehension [[value for (key, value) in items if key == name]].
    An item that does not unpack into two raises when the loop reaches it. *)
Fixpoint matching_values (items : list PyVal) (header_name : string)
  : result (list PyVal) :=
  match items with
  | [] => Ok []
  | item :: rest =>
    '(key, value) ← unpack2 item;
    values ← matching_values rest header_name;
    Ok (if py_eq_str key header_name then value :: values else values)
  end.

Definition get_header_from_scope (scope : Scope) (header_name : string)
  : result (list PyVal) :=
  headers ← dict_getitem scope "headers";
  items ← py_iter headers;
  matching_values items header_name.

(** ** collect_request_attributes (lines 87-113) *)

(** Line 89: [scope.get("server") or ['0.0.0.0', 80]]. *)
Definition default_server : PyVal := PyList [PyStr "0.0.0.0"; PyInt 80].

Definition resolve_server (scope : Scope) : PyVal :=
  py_or (dict_get scope "server") default_server.

(** Lines 90-91: [port] and the displayed [host]. *)
Definition port_and_host (server : PyVal) : result (PyVal * PyVal) :=
  port ← py_getitem server 1;
  name ← py_getitem server 0;
  host ← py_add name
           (PyStr (if negb (py_eq_int port 80) then ":" +:+ py_str port
                   else EmptyString));
  Ok (port, host).

(** Lines 92-94: [http_url]. *)
Definition request_url (scope : Scope) (host : PyVal) : result PyVal :=
  u ← py_add (dict_get scope "scheme") (PyStr "://");
  u ← py_add u host;
  http_url ← py_add u (dict_get scope "path");
  if truthy (dict_get scope "query_string") then
    query ← py_decode_utf8 (dict_get scope "query_string");
    suffix ← py_add (PyStr "?") query;
    py_add http_url suffix
  else Ok http_url.

(** Lines 96-105: the dict display; its values are evaluated in order, the
    first one by calling [scope]. *)
Definition fixed_attributes (scope : Scope) (port host http_url : PyVal)
  : result (gmap string PyVal) :=
  component ← dict_call scope [PyStr "type"];
  method ← dict_getitem scope "method";
  scheme ← dict_getitem scope "scheme";
  flavor ← dict_getitem scope "http_version";
  target ← dict_getitem scope "path";
  Ok (<["http.url" := http_url]>
      (<["http.target" := target]>
      (<["http.flaver" := flavor]>
      (<["host.port" := port]>
      (<["http.host" := host]>
      (<["http.schema" := scheme]>
      (<["http.method" := method]>
      (<["component" := component]> ∅)))))))).

(** Lines 107-109: the server name from the [host] headers. *)
Definition add_server_name (scope : Scope) (attrs : gmap string PyVal)
  : result (gmap string PyVal) :=
  values ← get_header_from_scope scope "host";
  http_host_value ← str_join "," values;
  Ok (if negb (is_empty http_host_value)
      then <["http.server_name" := PyStr http_host_value]> attrs
      else attrs).

(** Line 110: ["client" in scope and scope["client"] is not None]. *)
Definition has_client (scope : Scope) : bool :=
  match scope !! "client" with
  | Some PyNone | None => false
  | Some _ => true
  end.

(** Lines 110-112: the peer address. *)
Definition add_peer (scope : Scope) (attrs : gmap string PyVal)
  : result (gmap string PyVal) :=
  if has_client scope then
    ip ← py_getitem (dict_get scope "client") 0;
    peer_port ← py_getitem (dict_get scope "client") 1;
    Ok (<["net.peer.port" := peer_port]> (<["net.peer.ip" := ip]> attrs))
  else Ok attrs.

Definition collect_request_attributes (scope : Scope)
  : result (gmap string PyVal) :=
  '(port, host) ← port_and_host (resolve_server scope);
  http_url ← request_url scope host;
  attrs ← fixed_attributes scope port host http_url;
  attrs ← add_server_name scope attrs;
  add_peer scope attrs.

(** ** set_status_code (lines 116-131) *)

(** [int(status_code)] under [try]; [except ValueError] records UNKNOWN with
    a message, any other exception leaves the function; the [else] branch
    records the attribute and the classified status. *)
Definition set_status_code (span : Span) (status_code : PyVal)
  : result Span :=
  match py_int status_code with
  | Raise ValueError =>
    Ok (set_status span
          (mkStatus UNKNOWN
             (Some ("Non-integer HTTP status: " +:+ py_repr status_code))))
  | Raise e => Raise e
  | Ok code =>
    let span := set_attribute span "http.status_code" (PyInt code) in
    Ok (set_status span
          (mkStatus (http_status_to_canonical_code code allow_redirect_default)
                    None))
  end.

(** ** get_default_span_name (lines 134-137) *)

(** The dict is passed to [format] as its one positional argument; no
    keyword argument is given. *)
Definition get_default_span_name (scope : Scope) : result string :=
  py_format "HTTP {method}"
            [PyDict [("method", dict_get scope "method")]] ∅.

(** ** Request scopes used as test inputs *)

(** The required fields only: no server, client, host header or query. *)
Definition minimal_scope : Scope :=
  list_to_map
    [("type", PyStr "http"); ("method", PyStr "GET");
     ("scheme", PyStr "http"); ("path", PyStr "/a");
     ("http_version", PyStr "1.1"); ("headers", PyList [])].

Definition scope_https : Scope :=
  <["server" := PyTuple [PyStr "example.com"; PyInt 8443]]>
  (<["scheme" := PyStr "https"]>
  (<["query_string" := PyBytes "q=1"]> minimal_scope)).

Definition scope_http : Scope :=
  <["server" := PyTuple [PyStr "example.com"; PyInt 80]]>
  (<["query_string" := PyBytes EmptyString]> minimal_scope).

Definition scope_two_hosts : Scope :=
  <["headers" := PyList [PyTuple [PyStr "host"; PyStr "a.com"];
                         PyTuple [PyStr "host"; PyStr "b.com"]]]>
  minimal_scope.

Definition scope_with_client : Scope :=
  <["client" := PyTuple [PyStr "10.0.0.7"; PyInt 51234]]> minimal_scope.

Definition scope_server_none : Scope := <["server" := PyNone]> minimal_scope.


(** Lines 89-94 in one piece: the value [http_url] holds after line 94. *)
Definition http_url_of (scope : Scope) : result PyVal :=
  '(port, host) ← port_and_host (resolve_server scope);
  request_url scope host.

(** ** setifnotnone (lines 51-53) *)

(** [dic[key] = value] unless [value is None]; the dict after the call. *)
Definition setifnotnone (dic : gmap string PyVal) (key : string)
    (value : PyVal) : gmap string PyVal :=
  match value with
  | PyNone => dic
  | _ => <[key := value]> dic
  end.

(** ** OpenTelemetryMiddleware (lines 140-198) *)

(** Line 150: [self.name_callback = get_default_span_name]. *)
Definition default_name_callback (scope : Scope) : result PyVal :=
  PyStr <$> get_default_span_name scope.

(** Lines 162-170 of [__call__]: what is evaluated before [start_span] can
    be called, in order: the context [propagators.extract] returns, the
    name given by the callback, that name with its suffix, and the
    attributes.  The propagator belongs to the tracing library and the
    callback is an attribute of the middleware, so both are arguments. *)
Definition start_span_arguments
    (extract : Scope -> result PyVal)
    (name_callback : Scope -> result PyVal)
    (scope : Scope) : result (PyVal * PyVal * gmap string PyVal) :=
  parent_span ← extract scope;
  span_name ← name_callback scope;
  name ← py_add span_name (PyStr " (asgi_connection)");
  attrs ← collect_request_attributes scope;
  Ok (name, parent_span, attrs).

(** The two templates of lines 174 and 185, as written. *)
Definition receive_template : string := " (asgi.{type}.receive".
Definition send_template : string := " (asgi.{type}.end)".

(** Lines 174 and 185: [span_name + template.format({"type": scope['type']})],
    the name [start_as_current_span] is to be called with. *)
Definition child_span_name (template : string) (span_name : PyVal)
    (scope : Scope) : result PyVal :=
  type ← dict_getitem scope "type";
  suffix ← py_format template [PyDict [("type", type)]] ∅;
  py_add span_name (PyStr suffix).

(** How a block that updates a span in place ends: it runs to its end, or
    an exception leaves it; either way the span keeps what was set. *)
Inductive outcome : Type :=
| Returned (span : Span)
| Raised (span : Span) (e : PyExc).

(** Lines 176-179, the body of [wrapped_receive] once [receive()] has
    given [payload]. *)
Definition receive_span_updates (receive_span : Span)
    (payload : gmap string PyVal) : outcome :=
  match dict_getitem payload "type" with
  | Raise e => Raised receive_span e
  | Ok t =>
    if py_eq_str t "websocket.receive" then
      match set_status_code receive_span (PyInt 200) with
      | Raise e => Raised receive_span e
      | Ok span =>
        match dict_getitem payload "type" with
        | Raise e => Raised span e
        | Ok text => Returned (set_attribute span "http.status_text" text)
        end
      end
    else Returned receive_span
  end.

(** Lines 187-196, the body of [wrapped_send] up to [await send(payload)]. *)
Definition send_span_updates (send_span : Span)
    (payload : gmap string PyVal) : outcome :=
  match dict_getitem payload "type" with
  | Raise e => Raised send_span e
  | Ok t =>
    let branch :=
      if py_eq_str t "http.response.start" then
        match dict_getitem payload "sattus" with
        | Raise e => Raised send_span e
        | Ok status_code =>
          match set_status_code send_span status_code with
          | Raise e => Raised send_span e
          | Ok span => Returned span
          end
        end
      else if py_eq_str t "websocket.send" then
        match set_status_code send_span (PyInt 200) with
        | Raise e => Raised send_span e
        | Ok span =>
          match dict_getitem payload "text" with
          | Raise e => Raised span e
          | Ok text => Returned (set_attribute span "http.status_text" text)
          end
        end
      else Returned send_span
    in
    match branch with
    | Returned span => Returned (set_attribute span "type" t)
    | Raised span e => Raised span e
    end
  end.

(** ** Header lists used in statements *)

(** A header entry [(name, value)] with a [str] name, and one with both
    parts [bytes], the form an ASGI server sends. *)
Definition header_item (kv : string * PyVal) : PyVal :=
  PyTuple [PyStr kv.1; kv.2].

Definition bytes_header_item (kv : string * string) : PyVal :=
  PyTuple [PyBytes kv.1; PyBytes kv.2].

(** ** Inputs used to exercise the further properties *)

Definition scope_mixed_case : Scope :=
  <["headers" := PyList (header_item <$>
                   [("host", PyStr "a.com"); ("Host", PyStr "b.com");
                    ("accept", PyStr "*"); ("host", PyStr "c.com")])]>
  minimal_scope.

Definition scope_bytes_headers : Scope :=
  <["headers" := PyList (bytes_header_item <$>
                   [("host", "a.com"); ("traceparent", "00-ab-cd-01")])]>
  minimal_scope.

Definition scope_bad_header : Scope :=
  <["headers" := PyList ((header_item <$> [("host", PyStr "a.com")])
                         ++ PyTuple [PyStr "host"] :: [])]>
  minimal_scope.

Definition span_with_type : Span :=
  mkSpan {["type" := PyStr "http.response.start"]} None.

Definition scope_bad_query : Scope :=
  <["query_string" := PyBytes (String (ascii_of_N 255) "=1")]> minimal_scope.

Definition scope_str_query : Scope :=
  <["query_string" := PyStr "q=1"]> minimal_scope.

Definition response_start_event : gmap string PyVal :=
  list_to_map [("type", PyStr "http.response.start");
               ("status", PyInt 200); ("headers", PyList [])].

Definition binary_frame_event : gmap string PyVal :=
  list_to_map [("type", PyStr "websocket.send"); ("bytes", PyBytes "abc")].

Definition text_frame_event : gmap string PyVal :=
  list_to_map [("type", PyStr "websocket.send"); ("text", PyStr "hello")].

Definition response_body_event : gmap string PyVal :=
  list_to_map [("type", PyStr "http.response.body"); ("body", PyBytes "ok")].

Definition websocket_receive_event : gmap string PyVal :=
  list_to_map [("type", PyStr "websocket.receive"); ("text", PyStr "ping")].

Definition http_request_event : gmap string PyVal :=
  list_to_map [("type", PyStr "http.request"); ("body", PyBytes "x")].

(** * Properties *)

(** Turns every integer test of the classifier into a hypothesis. *)
Ltac classify_cases :=
  unfold http_status_to_canonical_code;
  repeat match goal with
         | |- context [?a <? ?b] => destruct (Z.ltb_spec a b)
         | |- context [?a <=? ?b] => destruct (Z.leb_spec a b)
         | |- context [?a =? ?b] => destruct (Z.eqb_spec a b)
         end;
  try reflexivity; try lia.

(** C1: every code in [100,299] is classified OK under either flag; every
    code in [300,399] is OK when redirects are allowed and DEADLINE_EXCEEDED
    when they are not. *)
Theorem status_1xx_2xx_3xx (code : Z) :
  (100 <= code <= 299 ->
   forall allow_redirect,
     http_status_to_canonical_code code allow_redirect = OK) /\
  (300 <= code <= 399 ->
   http_status_to_canonical_code code true = OK /\
   http_status_to_canonical_code code false = DEADLINE_EXCEEDED).
Proof.
  split.
  - intros Hr b. classify_cases.
  - intros Hr. split; classify_cases.
Qed.

Lemma status_1xx_2xx_3xx_witness :
  (http_status_to_canonical_code 204 true = OK /\
   http_status_to_canonical_code 204 false = OK) /\
  (http_status_to_canonical_code 302 true = OK /\
   http_status_to_canonical_code 302 false = DEADLINE_EXCEEDED).
Proof.
  split.
  - split; apply (proj1 (status_1xx_2xx_3xx 204)); lia.
  - apply (proj2 (status_1xx_2xx_3xx 302)); lia.
Defined.

(** C2: on [400,599] the four named client errors and the three named
    server errors get their own outcome, every other 4xx is
    INVALID_ARGUMENT and every other 5xx is INTERNAL, whatever the flag. *)
Theorem status_4xx_5xx (code : Z) (allow_redirect : bool) :
  400 <= code <= 599 ->
  http_status_to_canonical_code code allow_redirect =
    if decide (code = 401) then UNAUTHENTICATED
    else if decide (code = 403) then PERMISSION_DENIED
    else if decide (code = 404) then NOT_FOUND
    else if decide (code = 429) then RESOURCE_EXHAUSTED
    else if decide (code <= 499) then INVALID_ARGUMENT
    else if decide (code = 501) then UNIMPLEMENTED
    else if decide (code = 503) then UNAVAILABLE
    else if decide (code = 504) then DEADLINE_EXCEEDED
    else INTERNAL.
Proof.
  intros Hr. repeat case_decide; subst; classify_cases.
Qed.

Lemma status_4xx_5xx_witness :
  400 <= 429 <= 599 /\
  http_status_to_canonical_code 429 false = RESOURCE_EXHAUSTED.
Proof.
  split; [lia | apply (status_4xx_5xx 429 false); lia].
Defined.

(** C3: every code below 100 (negative ones included) and every code from
    600 up is UNKNOWN under either flag; on every integer the classifier
    returns one of the documented outcomes. *)
Theorem status_out_of_range_total (code : Z) (allow_redirect : bool) :
  (code < 100 \/ 600 <= code ->
   http_status_to_canonical_code code allow_redirect = UNKNOWN) /\
  In (http_status_to_canonical_code code allow_redirect) classifier_outcomes.
Proof.
  split.
  - intros Hr. classify_cases.
  - unfold classifier_outcomes. destruct allow_redirect; classify_cases;
      simpl; tauto.
Qed.

Lemma status_out_of_range_total_witness :
  http_status_to_canonical_code (-7) true = UNKNOWN /\
  http_status_to_canonical_code 600 false = UNKNOWN.
Proof.
  split.
  - apply (proj1 (status_out_of_range_total (-7) true)). left; lia.
  - apply (proj1 (status_out_of_range_total 600 false)). right; lia.
Defined.

(** ** set_status_code *)

Lemma set_status_code_ok (span : Span) (status_code : PyVal) (code : Z) :
  py_int status_code = Ok code ->
  set_status_code span status_code =
    Ok (mkSpan (<["http.status_code" := PyInt code]> (attributes span))
               (Some (mkStatus (http_status_to_canonical_code code true)
                               None))).
Proof. intros H. unfold set_status_code. rewrite H. reflexivity. Qed.

Lemma set_status_code_value_error (span : Span) (status_code : PyVal) :
  py_int status_code = Raise ValueError ->
  set_status_code span status_code =
    Ok (mkSpan (attributes span)
               (Some (mkStatus UNKNOWN
                        (Some ("Non-integer HTTP status: "
                               +:+ py_repr status_code))))).
Proof. intros H. unfold set_status_code. rewrite H. reflexivity. Qed.

Lemma set_status_code_other_error (span : Span) (status_code : PyVal)
    (e : PyExc) :
  py_int status_code = Raise e -> e <> ValueError ->
  set_status_code span status_code = Raise e.
Proof.
  intros H Hne. unfold set_status_code. rewrite H.
  destruct e; congruence.
Qed.

(** [int] fails on text and on numbers with ValueError only. *)
Lemma py_int_text_number (v : PyVal) (e : PyExc) :
  match v with
  | PyStr _ | PyBytes _ | PyInt _ | PyBool _ => True
  | _ => False
  end ->
  py_int v = Raise e -> e = ValueError.
Proof.
  destruct v; simpl; try tauto; intros _;
    try destruct (parse_int_literal _ _); congruence.
Qed.

(** C4, as the code has it: when [int] succeeds the span gets
    [http.status_code] set to the integer and the status classified from it;
    when [int] raises ValueError (its only failure on a [str], [bytes],
    [int] or [bool]) the span gets UNKNOWN with the message
    ["Non-integer HTTP status: "] followed by the [repr] of the input, its
    attributes stay as they were and the call returns; any other exception
    of [int] leaves the function. *)
Theorem set_status_code_outcomes (span : Span) (status_code : PyVal) :
  (forall code, py_int status_code = Ok code ->
     set_status_code span status_code =
       Ok (mkSpan (<["http.status_code" := PyInt code]> (attributes span))
                  (Some (mkStatus
                           (http_status_to_canonical_code code true) None))))
  /\ (py_int status_code = Raise ValueError ->
      set_status_code span status_code =
        Ok (mkSpan (attributes span)
                   (Some (mkStatus UNKNOWN
                            (Some ("Non-integer HTTP status: "
                                   +:+ py_repr status_code))))))
  /\ (forall e, py_int status_code = Raise e -> e <> ValueError ->
      set_status_code span status_code = Raise e)
  /\ (forall e,
        match status_code with
        | PyStr _ | PyBytes _ | PyInt _ | PyBool _ => True
        | _ => False
        end ->
        py_int status_code = Raise e -> e = ValueError).
Proof.
  repeat split.
  - intros code. apply set_status_code_ok.
  - apply set_status_code_value_error.
  - intros e. apply set_status_code_other_error.
  - intros e. apply py_int_text_number.
Qed.

Lemma set_status_code_outcomes_witness :
  set_status_code new_span (PyStr "404") =
    Ok (mkSpan (<["http.status_code" := PyInt 404]> (attributes new_span))
               (Some (mkStatus NOT_FOUND None)))
  /\ set_status_code new_span (PyStr "not-a-number") =
       Ok (mkSpan (attributes new_span)
                  (Some (mkStatus UNKNOWN
                           (Some "Non-integer HTTP status: 'not-a-number'")))).
Proof.
  split.
  - exact (proj1 (set_status_code_outcomes new_span (PyStr "404")) 404
             eq_refl).
  - exact (proj1 (proj2 (set_status_code_outcomes new_span
                           (PyStr "not-a-number"))) eq_refl).
Defined.

(** C4 as stated fails on [None]: the coercion fails, with TypeError, which
    [except ValueError] does not catch, so the fault reaches the caller and
    the span gets no status. *)
Lemma set_status_code_none_propagates :
  py_int PyNone = Raise TypeError /\
  set_status_code new_span PyNone = Raise TypeError.
Proof. split; reflexivity. Qed.

(** ** collect_request_attributes *)

Lemma fixed_attributes_raises (scope : Scope) (port host http_url : PyVal) :
  fixed_attributes scope port host http_url = Raise TypeError.
Proof. reflexivity. Qed.

Lemma collect_request_attributes_never_returns (scope : Scope) :
  exists e, collect_request_attributes scope = Raise e.
Proof.
  unfold collect_request_attributes.
  destruct (port_and_host (resolve_server scope)) as [[port host] | e];
    simpl; [| eauto].
  destruct (request_url scope host) as [http_url | e]; simpl; eauto.
Qed.

(** C5, on the code: the call [scope("type")] on line 97 raises TypeError,
    so no scope gets an attribute set back; a scope holding exactly the
    required fields raises TypeError. *)
Theorem collect_request_attributes_raises :
  (forall scope : Scope, exists e, collect_request_attributes scope = Raise e)
  /\ collect_request_attributes minimal_scope = Raise TypeError.
Proof.
  split.
  - apply collect_request_attributes_never_returns.
  - vm_compute. reflexivity.
Qed.

(** C6, on the code: for both scenarios lines 89-94 build the URL the claim
    gives, and the function then raises TypeError on line 97 instead of
    returning it. *)
Theorem url_scenarios_raise :
  http_url_of scope_https = Ok (PyStr "https://example.com:8443/a?q=1")
  /\ collect_request_attributes scope_https = Raise TypeError
  /\ http_url_of scope_http = Ok (PyStr "http://example.com/a")
  /\ collect_request_attributes scope_http = Raise TypeError.
Proof. repeat split; vm_compute; reflexivity. Qed.

(** C8, on the code: the two [host] values are found in order and join to
    ["a.com,b.com"], but the function has raised TypeError on line 97
    before it gets to them. *)
Theorem server_name_scenario_raises :
  get_header_from_scope scope_two_hosts "host"
    = Ok [PyStr "a.com"; PyStr "b.com"]
  /\ (get_header_from_scope scope_two_hosts "host" ≫= str_join ",")
       = Ok "a.com,b.com"
  /\ collect_request_attributes scope_two_hosts = Raise TypeError.
Proof. repeat split; vm_compute; reflexivity. Qed.

(** C9, on the code: with [client = ("10.0.0.7", 51234)] in the scope the
    function raises TypeError on line 97 and returns no attribute set, so
    neither peer attribute is recorded. *)
Theorem peer_scenario_raises :
  has_client scope_with_client = true
  /\ collect_request_attributes scope_with_client = Raise TypeError.
Proof. split; vm_compute; reflexivity. Qed.

(** ** get_default_span_name *)

(** C7, on the code: the template names the keyword argument [method] and
    [format] is given none (the dict is a positional argument), so every
    scope raises KeyError; with the method passed by keyword the same
    template gives ["HTTP GET"]. *)
Theorem get_default_span_name_raises :
  (forall scope : Scope, get_default_span_name scope = Raise KeyError)
  /\ get_default_span_name minimal_scope = Raise KeyError
  /\ py_format "HTTP {method}" [] {["method" := PyStr "GET"]} = Ok "HTTP GET".
Proof.
  split; [| split].
  - intros scope. reflexivity.
  - reflexivity.
  - vm_compute. reflexivity.
Qed.

(** ** The server field *)

Lemma result_bind_ext {A B : Type} (r : result A) (f g : A -> result B) :
  (forall a, f a = g a) -> r ≫= f = r ≫= g.
Proof. intros H. destruct r; simpl; [apply H | reflexivity]. Qed.

Lemma resolve_server_falsy (scope : Scope) (server : PyVal) :
  scope !! "server" = Some server -> truthy server = false ->
  resolve_server scope = default_server.
Proof.
  intros Hs Hf. unfold resolve_server, dict_get, py_or.
  rewrite Hs. simpl. rewrite Hf. reflexivity.
Qed.

Lemma resolve_server_absent (scope : Scope) :
  resolve_server (delete "server" scope) = default_server.
Proof.
  unfold resolve_server, dict_get. rewrite lookup_delete_eq. reflexivity.
Qed.

(** Every other field reads the same once [server] is removed. *)
Lemma lookup_without_server (scope : Scope) (key : string) :
  key <> "server" -> delete "server" scope !! key = scope !! key.
Proof. intros Hne. apply lookup_delete_ne. congruence. Qed.

Ltac forget_server :=
  unfold dict_get, dict_getitem;
  rewrite ?lookup_without_server by discriminate.

Lemma request_url_without_server (scope : Scope) (host : PyVal) :
  request_url (delete "server" scope) host = request_url scope host.
Proof. unfold request_url. forget_server. reflexivity. Qed.

Lemma fixed_attributes_without_server (scope : Scope)
    (port host http_url : PyVal) :
  fixed_attributes (delete "server" scope) port host http_url
  = fixed_attributes scope port host http_url.
Proof. unfold fixed_attributes, dict_call. forget_server. reflexivity. Qed.

Lemma add_server_name_without_server (scope : Scope)
    (attrs : gmap string PyVal) :
  add_server_name (delete "server" scope) attrs = add_server_name scope attrs.
Proof.
  unfold add_server_name, get_header_from_scope. forget_server. reflexivity.
Qed.

Lemma add_peer_without_server (scope : Scope) (attrs : gmap string PyVal) :
  add_peer (delete "server" scope) attrs = add_peer scope attrs.
Proof. unfold add_peer, has_client. forget_server. reflexivity. Qed.

(** Lines 89-91 treat a falsy [server] ([None], an empty sequence) as a
    missing one: both resolve to the default server, with port 80 and the
    displayed host ["0.0.0.0"] without a port suffix, and the statements
    that follow run alike on both scopes. *)
Theorem falsy_server_as_absent (scope : Scope) (server : PyVal) :
  scope !! "server" = Some server -> truthy server = false ->
  resolve_server scope = resolve_server (delete "server" scope)
  /\ port_and_host (resolve_server scope)
     = Ok (PyInt 80, PyStr "0.0.0.0")
  /\ collect_request_attributes scope
     = collect_request_attributes (delete "server" scope).
Proof.
  intros Hs Hf.
  pose proof (resolve_server_falsy scope server Hs Hf) as Hr.
  pose proof (resolve_server_absent scope) as Ha.
  split; [congruence |]. split; [rewrite Hr; reflexivity |].
  unfold collect_request_attributes. rewrite Hr, Ha.
  apply result_bind_ext. intros [port host].
  rewrite request_url_without_server.
  apply result_bind_ext. intros http_url.
  rewrite fixed_attributes_without_server.
  apply result_bind_ext. intros attrs.
  rewrite add_server_name_without_server.
  apply result_bind_ext. intros attrs'.
  apply eq_sym, add_peer_without_server.
Qed.

Lemma falsy_server_as_absent_witness :
  resolve_server scope_server_none
  = resolve_server (delete "server" scope_server_none)
  /\ port_and_host (resolve_server scope_server_none)
     = Ok (PyInt 80, PyStr "0.0.0.0")
  /\ collect_request_attributes scope_server_none
     = collect_request_attributes (delete "server" scope_server_none).
Proof.
  apply (falsy_server_as_absent scope_server_none PyNone); reflexivity.
Defined.


(** ** What the statements around line 97 compute *)


(** Lines 110-112, had they been reached: nothing is added without a
    client, both peer attributes are added from a client pair. *)
Lemma add_peer_without_client (scope : Scope) (attrs : gmap string PyVal) :
  has_client scope = false ->
  add_peer scope attrs = Ok attrs.
Proof. intros H. unfold add_peer. rewrite H. reflexivity. Qed.

Lemma add_peer_with_client (scope : Scope) (attrs : gmap string PyVal)
    (ip port : PyVal) :
  scope !! "client" = Some (PyTuple [ip; port]) ->
  add_peer scope attrs
  = Ok (<["net.peer.port" := port]> (<["net.peer.ip" := ip]> attrs)).
Proof.
  intros H. unfold add_peer, has_client, dict_get. rewrite H. reflexivity.
Qed.

(** Lines 107-109, had they been reached: the values of the matching
    headers joined by commas, recorded when the join is not empty. *)
Lemma add_server_name_joined (scope : Scope) (attrs : gmap string PyVal)
    (values : list PyVal) (joined : string) :
  get_header_from_scope scope "host" = Ok values ->
  str_join "," values = Ok joined ->
  add_server_name scope attrs
  = Ok (if is_empty joined then attrs
        else <["http.server_name" := PyStr joined]> attrs).
Proof.
  intros Hv Hj. unfold add_server_name. rewrite Hv. simpl. rewrite Hj. simpl.
  destruct (is_empty joined); reflexivity.
Qed.

(** * Further properties of the source *)

(** ** http_status_to_canonical_code *)

(** Case analysis for statements about which codes reach an outcome. *)
Ltac classify_inv :=
  unfold http_status_to_canonical_code;
  repeat match goal with
         | |- context [?a <? ?b] => destruct (Z.ltb_spec a b)
         | |- context [?a <=? ?b] => destruct (Z.leb_spec a b)
         | |- context [?a =? ?b] => destruct (Z.eqb_spec a b)
         end;
  split; intros; try discriminate; try reflexivity;
  intuition (try discriminate; try lia).

(** X1: outside [300,399] the flag [allow_redirect] has no effect on the
    outcome. *)
Theorem allow_redirect_only_for_3xx (code : Z) :
  code < 300 \/ 399 < code ->
  http_status_to_canonical_code code true
  = http_status_to_canonical_code code false.
Proof. intros Hr. classify_cases. Qed.

Lemma allow_redirect_only_for_3xx_witness :
  http_status_to_canonical_code 404 true
  = http_status_to_canonical_code 404 false.
Proof. apply (allow_redirect_only_for_3xx 404). right; lia. Defined.

(** X2: a code is classified OK exactly when it lies in [100,299], or in
    [300,399] with redirects allowed. *)
Theorem status_ok_iff (code : Z) (allow_redirect : bool) :
  http_status_to_canonical_code code allow_redirect = OK
  <-> 100 <= code <= 299 \/ (300 <= code <= 399 /\ allow_redirect = true).
Proof. destruct allow_redirect; classify_inv. Qed.

(** X3: a code is classified UNKNOWN exactly when it is below 100 or at
    least 600; no code from 100 to 599 is. *)
Theorem status_unknown_iff (code : Z) (allow_redirect : bool) :
  http_status_to_canonical_code code allow_redirect = UNKNOWN
  <-> code < 100 \/ 600 <= code.
Proof. destruct allow_redirect; classify_inv. Qed.

(** X4: DEADLINE_EXCEEDED is the outcome of 504 and of a redirect that is
    not allowed, and of nothing else. *)
Theorem status_deadline_exceeded_iff (code : Z) (allow_redirect : bool) :
  http_status_to_canonical_code code allow_redirect = DEADLINE_EXCEEDED
  <-> code = 504 \/ (300 <= code <= 399 /\ allow_redirect = false).
Proof. destruct allow_redirect; classify_inv. Qed.

(** ** setifnotnone *)

(** X5: [setifnotnone] keeps a dict free of [None] values: when no key of
    [dic] holds [None], none does after the call, whatever [value] is. *)
Theorem setifnotnone_keeps_none_free (dic : gmap string PyVal)
    (key : string) (value : PyVal) :
  (forall k, dic !! k <> Some PyNone) ->
  forall k, setifnotnone dic key value !! k <> Some PyNone.
Proof.
  intros Hdic k. unfold setifnotnone.
  destruct value; try apply Hdic;
    (destruct (decide (key = k)) as [-> | Hne];
     [rewrite lookup_insert_eq; discriminate
     | rewrite lookup_insert_ne by assumption; apply Hdic]).
Qed.

Lemma setifnotnone_keeps_none_free_witness :
  (forall k, ({["a" := PyInt 1]} : gmap string PyVal) !! k <> Some PyNone)
  /\ (forall k, setifnotnone {["a" := PyInt 1]} "b" (PyInt 2) !! k
                <> Some PyNone)
  /\ (forall k, setifnotnone {["a" := PyInt 1]} "b" PyNone !! k
                <> Some PyNone).
Proof.
  assert (H : forall k,
             ({["a" := PyInt 1]} : gmap string PyVal) !! k <> Some PyNone).
  { intros k. destruct (decide (k = "a")) as [-> | Hne].
    - rewrite lookup_singleton_eq. discriminate.
    - rewrite lookup_singleton_ne by congruence. discriminate. }
  split; [exact H |].
  split; apply (setifnotnone_keeps_none_free _ "b" _ H).
Defined.

(** ** get_header_from_scope *)

Lemma matching_values_header_items (pairs : list (string * PyVal))
    (header_name : string) :
  matching_values (header_item <$> pairs) header_name
  = Ok (snd <$> filter (fun kv => kv.1 = header_name) pairs).
Proof.
  induction pairs as [| [k v] pairs IH]; [reflexivity |].
  rewrite fmap_cons, filter_cons. cbn [matching_values].
  change (unpack2 (header_item (k, v))) with (Ok (PyStr k, v)).
  cbn [mbind result_bind]. rewrite IH. cbn [mbind result_bind py_eq_str fst].
  destruct (String.eqb_spec k header_name) as [Heq | Hne].
  - rewrite decide_True by exact Heq. reflexivity.
  - rewrite decide_False by exact Hne. reflexivity.
Qed.

Lemma matching_values_bytes_items (pairs : list (string * string))
    (header_name : string) :
  matching_values (bytes_header_item <$> pairs) header_name = Ok [].
Proof.
  induction pairs as [| [k v] pairs IH]; [reflexivity |].
  rewrite fmap_cons. cbn [matching_values].
  change (unpack2 (bytes_header_item (k, v)))
    with (Ok (PyBytes k, PyBytes v)).
  cbn [mbind result_bind]. rewrite IH. reflexivity.
Qed.

Lemma matching_values_app (items1 items2 : list PyVal)
    (header_name : string) :
  matching_values (items1 ++ items2) header_name
  = (values1 ← matching_values items1 header_name;
     values2 ← matching_values items2 header_name;
     Ok (values1 ++ values2)).
Proof.
  induction items1 as [| item items1 IH].
  - simpl. destruct (matching_values items2 header_name); reflexivity.
  - rewrite <- app_comm_cons. cbn [matching_values].
    destruct (unpack2 item) as [[key value] | e]; [| reflexivity].
    cbn [mbind result_bind]. rewrite IH.
    destruct (matching_values items1 header_name) as [values1 | e];
      [| reflexivity].
    cbn [mbind result_bind].
    destruct (matching_values items2 header_name) as [values2 | e];
      [| reflexivity].
    cbn [mbind result_bind].
    destruct (py_eq_str key header_name); reflexivity.
Qed.

Lemma get_header_from_list (scope : Scope) (items : list PyVal)
    (header_name : string) :
  scope !! "headers" = Some (PyList items) ->
  get_header_from_scope scope header_name
  = matching_values items header_name.
Proof.
  intros H. unfold get_header_from_scope, dict_getitem. rewrite H.
  reflexivity.
Qed.

(** X6: on a header list of [(name, value)] pairs with [str] names the
    lookup returns the values of exactly the entries whose name equals
    [header_name] (compared as it is, case included), all of them and in
    the order of the list. *)
Theorem get_header_from_scope_filter (scope : Scope)
    (pairs : list (string * PyVal)) (header_name : string) :
  scope !! "headers" = Some (PyList (header_item <$> pairs)) ->
  get_header_from_scope scope header_name
  = Ok (snd <$> filter (fun kv => kv.1 = header_name) pairs).
Proof.
  intros H. rewrite (get_header_from_list _ _ _ H).
  apply matching_values_header_items.
Qed.

Lemma get_header_from_scope_filter_witness :
  get_header_from_scope scope_mixed_case "host"
  = Ok [PyStr "a.com"; PyStr "c.com"].
Proof.
  exact (get_header_from_scope_filter scope_mixed_case
           [("host", PyStr "a.com"); ("Host", PyStr "b.com");
            ("accept", PyStr "*"); ("host", PyStr "c.com")] "host" eq_refl).
Defined.

(** X7: when the header names are [bytes], as an ASGI server sends them,
    no entry equals the [str] [header_name]: the lookup returns the empty
    list for every name. *)
Theorem get_header_from_scope_bytes (scope : Scope)
    (pairs : list (string * string)) (header_name : string) :
  scope !! "headers" = Some (PyList (bytes_header_item <$> pairs)) ->
  get_header_from_scope scope header_name = Ok [].
Proof.
  intros H. rewrite (get_header_from_list _ _ _ H).
  apply matching_values_bytes_items.
Qed.

Lemma get_header_from_scope_bytes_witness :
  get_header_from_scope scope_bytes_headers "host" = Ok [].
Proof.
  exact (get_header_from_scope_bytes scope_bytes_headers
           [("host", "a.com"); ("traceparent", "00-ab-cd-01")] "host"
           eq_refl).
Defined.

(** X8: the lookup fails as a whole: KeyError without a [headers] field,
    TypeError when the field is [None], and ValueError as soon as one
    entry is a tuple of a length other than two, whatever the entries
    before it matched and whatever follows. *)
Theorem get_header_from_scope_errors (scope : Scope)
    (header_name : string) :
  (scope !! "headers" = None ->
   get_header_from_scope scope header_name = Raise KeyError)
  /\ (scope !! "headers" = Some PyNone ->
      get_header_from_scope scope header_name = Raise TypeError)
  /\ (forall pairs entry rest,
        scope !! "headers"
        = Some (PyList ((header_item <$> pairs) ++ PyTuple entry :: rest)) ->
        length entry <> 2%nat ->
        get_header_from_scope scope header_name = Raise ValueError).
Proof.
  split; [| split].
  - intros H. unfold get_header_from_scope, dict_getitem. rewrite H.
    reflexivity.
  - intros H. unfold get_header_from_scope, dict_getitem. rewrite H.
    reflexivity.
  - intros pairs entry rest H Hlen.
    rewrite (get_header_from_list _ _ _ H), matching_values_app.
    rewrite matching_values_header_items. cbn [mbind result_bind].
    cbn [matching_values].
    assert (Hu : unpack2 (PyTuple entry) = Raise ValueError).
    { destruct entry as [| a [| b [| c entry]]]; try reflexivity.
      simpl in Hlen. congruence. }
    rewrite Hu. reflexivity.
Qed.

Lemma get_header_from_scope_errors_witness :
  get_header_from_scope (delete "headers" minimal_scope) "host"
    = Raise KeyError
  /\ get_header_from_scope (<["headers" := PyNone]> minimal_scope) "host"
     = Raise TypeError
  /\ get_header_from_scope scope_bad_header "host" = Raise ValueError.
Proof.
  split; [| split].
  - exact (proj1 (get_header_from_scope_errors
                    (delete "headers" minimal_scope) "host") eq_refl).
  - exact (proj1 (proj2 (get_header_from_scope_errors
                           (<["headers" := PyNone]> minimal_scope) "host"))
             eq_refl).
  - apply (proj2 (proj2 (get_header_from_scope_errors scope_bad_header
                           "host"))
             [("host", PyStr "a.com")] [PyStr "host"] []);
      [reflexivity | simpl; lia].
Defined.

(** X9: the lookup on two header lists put one after the other is the
    lookup on the first followed by the lookup on the second, failures
    included. *)
Theorem get_header_from_scope_app (scope : Scope)
    (items1 items2 : list PyVal) (header_name : string) :
  get_header_from_scope (<["headers" := PyList (items1 ++ items2)]> scope)
                        header_name
  = (values1 ← get_header_from_scope (<["headers" := PyList items1]> scope)
                                     header_name;
     values2 ← get_header_from_scope (<["headers" := PyList items2]> scope)
                                     header_name;
     Ok (values1 ++ values2)).
Proof.
  rewrite !(get_header_from_list _ _ _ (lookup_insert_eq _ _ _)).
  apply matching_values_app.
Qed.

(** ** set_status_code, once more *)

(** X10: a call that returns has set a status, and has left every
    attribute other than [http.status_code] as it was. *)
Theorem set_status_code_frame (span span' : Span) (status_code : PyVal) :
  set_status_code span status_code = Ok span' ->
  is_Some (status span')
  /\ forall key, key <> "http.status_code" ->
       attributes span' !! key = attributes span !! key.
Proof.
  unfold set_status_code.
  destruct (py_int status_code) as [code | []]; intros [= <-]; simpl;
    (split; [eexists; reflexivity | intros key Hne]);
    [rewrite lookup_insert_ne by congruence |]; reflexivity.
Qed.

Lemma set_status_code_frame_witness :
  is_Some (status (mkSpan (<["http.status_code" := PyInt 503]>
                             (attributes span_with_type))
                          (Some (mkStatus UNAVAILABLE None))))
  /\ forall key, key <> "http.status_code" ->
       attributes (mkSpan (<["http.status_code" := PyInt 503]>
                             (attributes span_with_type))
                          (Some (mkStatus UNAVAILABLE None))) !! key
       = attributes span_with_type !! key.
Proof.
  apply (set_status_code_frame span_with_type _ (PyInt 503)). reflexivity.
Defined.

(** X11: of two calls in a row the later one decides the status.  When its
    input is an integer the span ends as if only that call had been made;
    when [int] raises ValueError on it the span ends UNKNOWN with the
    message, yet keeps the [http.status_code] of the earlier call. *)
Theorem set_status_code_twice (span span1 : Span) (first second : PyVal) :
  set_status_code span first = Ok span1 ->
  (forall code, py_int second = Ok code ->
     set_status_code span1 second = set_status_code span second)
  /\ (forall code, py_int first = Ok code ->
      py_int second = Raise ValueError ->
      set_status_code span1 second
      = Ok (mkSpan (<["http.status_code" := PyInt code]> (attributes span))
                   (Some (mkStatus UNKNOWN
                            (Some ("Non-integer HTTP status: "
                                   +:+ py_repr second)))))).
Proof.
  intros H1. split.
  - intros code H2. unfold set_status_code in *. rewrite H2.
    destruct (py_int first) as [code1 | []]; try discriminate H1;
      injection H1 as <-; unfold set_status, set_attribute; simpl;
      [rewrite insert_insert_eq |]; reflexivity.
  - intros code Hf Hs. unfold set_status_code in *.
    rewrite Hf in H1. injection H1 as <-. rewrite Hs. reflexivity.
Qed.

Lemma set_status_code_twice_witness :
  set_status_code (mkSpan (<["http.status_code" := PyInt 200]> ∅)
                          (Some (mkStatus OK None))) (PyStr "n/a")
  = Ok (mkSpan (<["http.status_code" := PyInt 200]> (attributes new_span))
               (Some (mkStatus UNKNOWN
                        (Some ("Non-integer HTTP status: "
                               +:+ py_repr (PyStr "n/a")))))).
Proof.
  exact (proj2 (set_status_code_twice new_span _ (PyInt 200) (PyStr "n/a")
                  eq_refl) 200 eq_refl eq_refl).
Defined.

(** ** Lines 89-94: host and URL *)


Lemma port_and_host_is_str (server port host : PyVal) :
  port_and_host server = Ok (port, host) -> exists s, host = PyStr s.
Proof.
  unfold port_and_host.
  destruct (py_getitem server 1) as [p | e]; [| discriminate].
  destruct (py_getitem server 0) as [name | e]; [| discriminate].
  cbn [mbind result_bind].
  destruct name; try discriminate. simpl. intros [= _ <-]. eauto.
Qed.

Lemma add_to_str_is_str (v u : PyVal) (s : string) :
  py_add v (PyStr s) = Ok u -> exists t, u = PyStr t.
Proof. destruct v; try discriminate. simpl. intros [= <-]. eauto. Qed.

(** X13: a scope without [scheme] or without [path] makes line 92 raise
    TypeError ([None] added to a [str]), not the KeyError a subscript
    would give. *)
Theorem http_url_of_missing_field (scope : Scope) (port host : PyVal) :
  port_and_host (resolve_server scope) = Ok (port, host) ->
  scope !! "scheme" = None \/ scope !! "path" = None ->
  http_url_of scope = Raise TypeError.
Proof.
  intros Hh Hmiss. unfold http_url_of. rewrite Hh. cbn [mbind result_bind].
  destruct (port_and_host_is_str _ _ _ Hh) as [h ->].
  unfold request_url.
  destruct Hmiss as [Hs | Hp].
  - assert (Hg : dict_get scope "scheme" = PyNone)
      by (unfold dict_get; rewrite Hs; reflexivity).
    rewrite Hg. reflexivity.
  - assert (Hg : dict_get scope "path" = PyNone)
      by (unfold dict_get; rewrite Hp; reflexivity).
    rewrite Hg.
    destruct (py_add (dict_get scope "scheme") (PyStr "://")) as [u | e] eqn:Hu.
    + destruct (add_to_str_is_str _ _ _ Hu) as [t ->]. reflexivity.
    + cbn [mbind result_bind].
      destruct (dict_get scope "scheme"); simpl in Hu; congruence.
Qed.

Lemma http_url_of_missing_field_witness :
  http_url_of (delete "scheme" minimal_scope) = Raise TypeError
  /\ http_url_of (delete "path" minimal_scope) = Raise TypeError.
Proof.
  split.
  - apply (http_url_of_missing_field (delete "scheme" minimal_scope)
             (PyInt 80) (PyStr "0.0.0.0")); [reflexivity | left; reflexivity].
  - apply (http_url_of_missing_field (delete "path" minimal_scope)
             (PyInt 80) (PyStr "0.0.0.0")); [reflexivity | right; reflexivity].
Defined.

Lemma request_url_query (scope : Scope) (host : PyVal) :
  request_url scope host
  = (http_url ← request_url (delete "query_string" scope) host;
     if truthy (dict_get scope "query_string") then
       query ← py_decode_utf8 (dict_get scope "query_string");
       suffix ← py_add (PyStr "?") query;
       py_add http_url suffix
     else Ok http_url).
Proof.
  unfold request_url.
  replace (dict_get (delete "query_string" scope) "scheme")
    with (dict_get scope "scheme")
    by (unfold dict_get; rewrite lookup_delete_ne by discriminate;
        reflexivity).
  replace (dict_get (delete "query_string" scope) "path")
    with (dict_get scope "path")
    by (unfold dict_get; rewrite lookup_delete_ne by discriminate;
        reflexivity).
  replace (dict_get (delete "query_string" scope) "query_string")
    with PyNone
    by (unfold dict_get; rewrite lookup_delete_eq; reflexivity).
  destruct (py_add (dict_get scope "scheme") (PyStr "://")) as [u | e];
    [| reflexivity].
  cbn [mbind result_bind].
  destruct (py_add u host) as [u' | e]; [| reflexivity].
  cbn [mbind result_bind].
  destruct (py_add u' (dict_get scope "path")) as [http_url | e];
    reflexivity.
Qed.

Lemma http_url_of_query (scope : Scope) :
  http_url_of scope
  = (http_url ← http_url_of (delete "query_string" scope);
     if truthy (dict_get scope "query_string") then
       query ← py_decode_utf8 (dict_get scope "query_string");
       suffix ← py_add (PyStr "?") query;
       py_add http_url suffix
     else Ok http_url).
Proof.
  unfold http_url_of.
  replace (resolve_server (delete "query_string" scope))
    with (resolve_server scope)
    by (unfold resolve_server, dict_get;
        rewrite lookup_delete_ne by discriminate; reflexivity).
  destruct (port_and_host (resolve_server scope)) as [[port host] | e];
    [| reflexivity].
  cbn [mbind result_bind]. apply request_url_query.
Qed.

(** X14: how the query string enters the URL.  A missing or empty one
    changes nothing; a non-empty [bytes] that is UTF-8 is appended after
    ["?"]; a non-empty [bytes] that is not UTF-8 raises UnicodeDecodeError
    and a non-empty [str] raises AttributeError, both only once the rest
    of the URL has been built. *)
Theorem http_url_of_query_string (scope : Scope) :
  (truthy (dict_get scope "query_string") = false ->
   http_url_of scope = http_url_of (delete "query_string" scope))
  /\ forall base query,
       http_url_of (delete "query_string" scope) = Ok (PyStr base) ->
       is_empty query = false ->
       (scope !! "query_string" = Some (PyBytes query) ->
        http_url_of scope
        = match utf8_chars query with
          | Some _ => Ok (PyStr (base +:+ ("?" +:+ query)))
          | None => Raise UnicodeDecodeError
          end)
       /\ (scope !! "query_string" = Some (PyStr query) ->
           http_url_of scope = Raise AttributeError).
Proof.
  split.
  - intros Hf. rewrite http_url_of_query, Hf.
    destruct (http_url_of (delete "query_string" scope)); reflexivity.
  - intros base query Hb Hne. split; intros Hq.
    + assert (Hg : dict_get scope "query_string" = PyBytes query)
        by (unfold dict_get; rewrite Hq; reflexivity).
      rewrite http_url_of_query, Hb, Hg. cbn [mbind result_bind].
      change (truthy (PyBytes query)) with (negb (is_empty query)).
      rewrite Hne. cbn [negb py_decode_utf8].
      destruct (utf8_chars query); reflexivity.
    + assert (Hg : dict_get scope "query_string" = PyStr query)
        by (unfold dict_get; rewrite Hq; reflexivity).
      rewrite http_url_of_query, Hb, Hg. cbn [mbind result_bind].
      change (truthy (PyStr query)) with (negb (is_empty query)).
      rewrite Hne. reflexivity.
Qed.

Lemma http_url_of_query_string_witness :
  http_url_of scope_bad_query = Raise UnicodeDecodeError
  /\ http_url_of scope_str_query = Raise AttributeError.
Proof.
  split.
  - exact (proj1 (proj2 (http_url_of_query_string scope_bad_query)
                    "http://0.0.0.0/a" (String (ascii_of_N 255) "=1")
                    eq_refl eq_refl) eq_refl).
  - exact (proj2 (proj2 (http_url_of_query_string scope_str_query)
                    "http://0.0.0.0/a" "q=1" eq_refl eq_refl) eq_refl).
Defined.

(** ** collect_request_attributes as a whole *)

Lemma collect_request_attributes_as_url (scope : Scope) :
  collect_request_attributes scope
  = (http_url_of scope ≫= fun _ => Raise TypeError).
Proof.
  unfold collect_request_attributes, http_url_of.
  destruct (port_and_host (resolve_server scope)) as [[port host] | e];
    [| reflexivity].
  cbn [mbind result_bind].
  destruct (request_url scope host) as [http_url | e]; reflexivity.
Qed.

(** X15: the call fails with whatever lines 89-94 raise, and with the
    TypeError of line 97 when they raise nothing. *)
Theorem collect_request_attributes_exception (scope : Scope) :
  collect_request_attributes scope
  = (http_url_of scope ≫= fun _ => Raise TypeError).
Proof. apply collect_request_attributes_as_url. Qed.

Lemma http_url_of_other_key (scope : Scope) (key : string) (value : PyVal) :
  key <> "server" -> key <> "scheme" -> key <> "path" ->
  key <> "query_string" ->
  http_url_of (<[key := value]> scope) = http_url_of scope.
Proof.
  intros H1 H2 H3 H4.
  unfold http_url_of, resolve_server, request_url, dict_get.
  rewrite !lookup_insert_ne by assumption. reflexivity.
Qed.

(** X16: the outcome depends on the fields [server], [scheme], [path] and
    [query_string] only: setting any other field (method, headers, client,
    type, ...) to any value changes nothing. *)
Theorem collect_request_attributes_ignores (scope : Scope) (key : string)
    (value : PyVal) :
  key <> "server" -> key <> "scheme" -> key <> "path" ->
  key <> "query_string" ->
  collect_request_attributes (<[key := value]> scope)
  = collect_request_attributes scope.
Proof.
  intros H1 H2 H3 H4. rewrite !collect_request_attributes_as_url.
  rewrite http_url_of_other_key by assumption. reflexivity.
Qed.

Lemma collect_request_attributes_ignores_witness :
  collect_request_attributes scope_with_client
  = collect_request_attributes minimal_scope.
Proof.
  apply (collect_request_attributes_ignores minimal_scope "client");
    discriminate.
Defined.

(** ** OpenTelemetryMiddleware *)

(** X17: [__call__] never gets to call [start_span]: evaluating its
    arguments raises for every scope, whatever the propagator returns and
    whatever the naming callback is.  With the callback [__init__]
    installs, the exception is the propagator's own or else KeyError. *)
Theorem start_span_never_called :
  (forall extract name_callback scope,
     exists e, start_span_arguments extract name_callback scope = Raise e)
  /\ (forall extract scope,
        start_span_arguments extract default_name_callback scope
        = (extract scope ≫= fun _ => Raise KeyError)).
Proof.
  split.
  - intros extract name_callback scope. unfold start_span_arguments.
    destruct (extract scope) as [parent | e]; [| eauto].
    cbn [mbind result_bind].
    destruct (name_callback scope) as [span_name | e]; [| eauto].
    cbn [mbind result_bind].
    destruct (py_add span_name (PyStr " (asgi_connection)")) as [name | e];
      [| eauto].
    cbn [mbind result_bind].
    destruct (collect_request_attributes_never_returns scope) as [e ->].
    eauto.
  - intros extract scope. unfold start_span_arguments.
    destruct (extract scope) as [parent | e]; reflexivity.
Qed.

(** X18: the span names of [wrapped_receive] and [wrapped_send] cannot be
    built: for every connection span name and every scope the expression
    raises KeyError, from [scope['type']] when the field is missing and
    from [format] when it is there. *)
Theorem child_span_name_raises (span_name : PyVal) (scope : Scope) :
  child_span_name receive_template span_name scope = Raise KeyError
  /\ child_span_name send_template span_name scope = Raise KeyError.
Proof.
  unfold child_span_name, dict_getitem.
  destruct (scope !! "type") as [type |]; split; reflexivity.
Qed.

(** ** The bodies of wrapped_receive and wrapped_send *)

(** X19: for an [http.response.start] event the status is read from the
    key [sattus].  An event without that key raises KeyError and leaves the
    span untouched, whatever it carries under [status]; an event with it
    has this value handed to [set_status_code]. *)
Theorem send_response_start (send_span : Span)
    (payload : gmap string PyVal) :
  payload !! "type" = Some (PyStr "http.response.start") ->
  (payload !! "sattus" = None ->
   send_span_updates send_span payload = Raised send_span KeyError)
  /\ (forall status_code span,
        payload !! "sattus" = Some status_code ->
        set_status_code send_span status_code = Ok span ->
        send_span_updates send_span payload
        = Returned (set_attribute span "type"
                      (PyStr "http.response.start"))).
Proof.
  intros Ht. unfold send_span_updates, dict_getitem. rewrite Ht.
  cbn [py_eq_str String.eqb Ascii.eqb Bool.eqb]. split.
  - intros Hs. rewrite Hs. reflexivity.
  - intros status_code span Hs Hset. rewrite Hs, Hset. reflexivity.
Qed.

Lemma send_response_start_witness :
  send_span_updates new_span response_start_event
  = Raised new_span KeyError.
Proof.
  exact (proj1 (send_response_start new_span response_start_event eq_refl)
           eq_refl).
Defined.

(** X20: for a [websocket.send] event the span gets status OK and
    [http.status_code] 200; with a [text] key it also gets
    [http.status_text] and [type], without one (a binary frame) KeyError is
    raised after the status has been set and before [type] is. *)
Theorem send_websocket (send_span : Span) (payload : gmap string PyVal) :
  payload !! "type" = Some (PyStr "websocket.send") ->
  (forall text, payload !! "text" = Some text ->
     send_span_updates send_span payload
     = Returned
         (mkSpan (<["type" := PyStr "websocket.send"]>
                  (<["http.status_text" := text]>
                  (<["http.status_code" := PyInt 200]>
                     (attributes send_span))))
                 (Some (mkStatus OK None))))
  /\ (payload !! "text" = None ->
      send_span_updates send_span payload
      = Raised (mkSpan (<["http.status_code" := PyInt 200]>
                          (attributes send_span))
                       (Some (mkStatus OK None)))
               KeyError).
Proof.
  intros Ht. unfold send_span_updates, dict_getitem. rewrite Ht.
  cbn [py_eq_str String.eqb Ascii.eqb Bool.eqb]. split.
  - intros text Hx. rewrite Hx. reflexivity.
  - intros Hx. rewrite Hx. reflexivity.
Qed.

Lemma send_websocket_witness :
  send_span_updates new_span text_frame_event
  = Returned
      (mkSpan (<["type" := PyStr "websocket.send"]>
               (<["http.status_text" := PyStr "hello"]>
               (<["http.status_code" := PyInt 200]> (attributes new_span))))
              (Some (mkStatus OK None)))
  /\ send_span_updates new_span binary_frame_event
     = Raised (mkSpan (<["http.status_code" := PyInt 200]>
                         (attributes new_span))
                      (Some (mkStatus OK None)))
              KeyError.
Proof.
  split.
  - exact (proj1 (send_websocket new_span text_frame_event eq_refl)
             (PyStr "hello") eq_refl).
  - exact (proj2 (send_websocket new_span binary_frame_event eq_refl)
             eq_refl).
Defined.

(** X21: an event of any other type only adds its type to the span, as
    the attribute [type]: status and the other attributes stay as they
    were.  An event without a [type] raises KeyError. *)
Theorem send_other_event (send_span : Span) (payload : gmap string PyVal) :
  (forall t, payload !! "type" = Some t ->
     py_eq_str t "http.response.start" = false ->
     py_eq_str t "websocket.send" = false ->
     send_span_updates send_span payload
     = Returned (mkSpan (<["type" := t]> (attributes send_span))
                        (status send_span)))
  /\ (payload !! "type" = None ->
      send_span_updates send_span payload = Raised send_span KeyError).
Proof.
  unfold send_span_updates, dict_getitem. split.
  - intros t Ht H1 H2. rewrite Ht, H1, H2. reflexivity.
  - intros Ht. rewrite Ht. reflexivity.
Qed.

Lemma send_other_event_witness :
  send_span_updates new_span response_body_event
  = Returned (mkSpan (<["type" := PyStr "http.response.body"]>
                        (attributes new_span))
                     (status new_span)).
Proof.
  exact (proj1 (send_other_event new_span response_body_event)
           (PyStr "http.response.body") eq_refl eq_refl eq_refl).
Defined.

(** X22: a received [websocket.receive] event gives the span status OK,
    [http.status_code] 200 and the event type as [http.status_text]; an
    event of any other type leaves the span as it was. *)
Theorem receive_event (receive_span : Span) (payload : gmap string PyVal) :
  (payload !! "type" = Some (PyStr "websocket.receive") ->
   receive_span_updates receive_span payload
   = Returned
       (mkSpan (<["http.status_text" := PyStr "websocket.receive"]>
                (<["http.status_code" := PyInt 200]>
                   (attributes receive_span)))
               (Some (mkStatus OK None))))
  /\ (forall t, payload !! "type" = Some t ->
        py_eq_str t "websocket.receive" = false ->
        receive_span_updates receive_span payload = Returned receive_span).
Proof.
  unfold receive_span_updates, dict_getitem. split.
  - intros Ht. rewrite Ht. reflexivity.
  - intros t Ht Hne. rewrite Ht, Hne. reflexivity.
Qed.

Lemma receive_event_witness :
  receive_span_updates new_span websocket_receive_event
  = Returned
      (mkSpan (<["http.status_text" := PyStr "websocket.receive"]>
               (<["http.status_code" := PyInt 200]> (attributes new_span)))
              (Some (mkStatus OK None)))
  /\ receive_span_updates new_span http_request_event = Returned new_span.
Proof.
  split.
  - exact (proj1 (receive_event new_span websocket_receive_event) eq_refl).
  - exact (proj2 (receive_event new_span http_request_event)
             (PyStr "http.request") eq_refl eq_refl).
Defined.
